(** * pyocd.board.board: the Board class

    A shallow embedding of [src/pyocd/board/board.py]: construction of a
    [Board] (target-type resolution against the global [TARGET] registry and
    the two CMSIS-pack sources), the [init]/[uninit] lifecycle with its
    optional delegate hooks, and the read-only properties.

    Python objects the class only talks to (the session, the probe, the
    target, the delegate, the pack loaders) are records of their observable
    operations.  Operations that touch hardware or files are functions on an
    abstract [World]; they either return or raise.  The module keeps a
    chronological [trace] of every call it makes to a collaborator and of
    every log record, so that ordering properties can be stated. *)

From Stdlib Require Import String Ascii List Bool Arith Lia.
From stdpp Require Import base gmap strings list.
Import ListNotations.

Open Scope string_scope.
Open Scope list_scope.

(** ** Strings *)

(** [str.lower()].  A [string] is read as a sequence of code points in
    U+0000..U+00FF; on that range Python lower-cases [A-Z] and the Latin-1
    capitals U+00C0..U+00DE (the multiplication sign U+00D7 apart) by adding
    32, and leaves every other code point alone. *)
Definition lower_char (c : ascii) : ascii :=
  let n := nat_of_ascii c in
  if ((65 <=? n)%nat && (n <=? 90)%nat)
     || ((192 <=? n)%nat && (n <=? 222)%nat && negb (n =? 215)%nat)
  then ascii_of_nat (n + 32)
  else c.

Fixpoint lower (s : string) : string :=
  match s with
  | EmptyString => EmptyString
  | String c s' => String (lower_char c) (lower s')
  end.

(** ** Values, exceptions, results *)

(** Values found in the session's option mapping. *)
Inductive pyval : Type :=
| PyNone
| PyBool (b : bool)
| PyStr (s : string).

Definition is_not_None (v : pyval) : bool :=
  match v with PyNone => false | _ => true end.

(** Exceptions.  [TargetSupportError] carries its message and the exception
    it was raised from ([six.raise_from]); [OtherError] stands for every
    exception class the module does not name. *)
Inductive exn : Type :=
| KeyError (key : string)
| TargetSupportError (msg : string) (cause : exn)
| OtherError (name : string).

Inductive result (A : Type) : Type :=
| Ok (a : A)
| Raise (e : exn).
Arguments Ok {A} a.
Arguments Raise {A} e.

(** What a finished call looked like from outside: [None] when it returned,
    [Some e] when it raised [e]. *)
Definition raised {A : Type} (r : result A) : option exn :=
  match r with Ok _ => None | Raise e => Some e end.

Inductive level : Type := DEBUG | INFO | WARNING | ERROR.

(** One entry per call to a collaborator and per log record. *)
Inductive event : Type :=
| EvPopulatePack (pack : pyval) (r : option exn)
| EvPopulateManaged (name : string) (r : option exn)
| EvContains (key : string) (found : bool)
| EvGetitem (key : string) (found : bool)
| EvConstruct (key : string) (r : option exn)
| EvWillConnect (r : option exn)
| EvTargetInit (r : option exn)
| EvDidConnect (r : option exn)
| EvDisconnect (resume : pyval) (r : option exn)
| EvAddChild (r : option exn)
| EvLog (lvl : level) (msg : string).

(** ** A state and exception monad

    A Python exception does not undo the assignments made before it, so a
    raising computation still returns the state it reached. *)
Definition M (S A : Type) : Type := S -> result A * S.

Definition ret {S A : Type} (a : A) : M S A := fun s => (Ok a, s).

Definition bind {S A B : Type} (m : M S A) (k : A -> M S B) : M S B :=
  fun s =>
    match m s with
    | (Ok a, s') => k a s'
    | (Raise e, s') => (Raise e, s')
    end.

Definition raise {S A : Type} (e : exn) : M S A := fun s => (Raise e, s).

(** [try: body / except: handler]. *)
Definition try_except {S A : Type} (body : M S A) (handler : exn -> M S A)
  : M S A :=
  fun s =>
    match body s with
    | (Ok a, s') => (Ok a, s')
    | (Raise e, s') => handler e s'
    end.

Definition gets {S A : Type} (f : S -> A) : M S A := fun s => (Ok (f s), s).

Definition modify {S : Type} (f : S -> S) : M S unit := fun s => (Ok tt, f s).

Declare Scope py_scope.
Delimit Scope py_scope with py.
Notation "x <- m ;; k" := (bind m (fun x => k))
  (at level 100, m at next level, right associativity) : py_scope.
Notation "m ;;; k" := (bind m (fun _ => k))
  (at level 100, right associativity) : py_scope.
Open Scope py_scope.

(** ** Collaborators *)

Section Model.

Context {World : Type}.

(** A call into a collaborator: it may change the world, and returns or
    raises. *)
Definition extcall (A : Type) : Type := World -> result A * World.

(** What a delegate hook can read of the board it is handed. *)
Record BoardView : Type := mkBoardView {
  view_target_type : string;
  view_inited : bool
}.

(** A delegate: each hook is an attribute the object may or may not have
    ([hasattr]). *)
Record Delegate : Type := mkDelegate {
  will_connect : option (BoardView -> extcall unit);
  did_connect : option (BoardView -> extcall unit)
}.

Record Target : Type := mkTarget {
  Target_init : extcall unit;
  Target_disconnect : pyval -> extcall unit
}.

Record Probe : Type := mkProbe {
  probe_unique_id : string;
  vendor_name : string;
  product_name : string
}.

Record Session : Type := mkSession {
  options : gmap string pyval;
  probe : Probe;
  session_delegate : option Delegate;
  log_tracebacks : bool
}.

(** [session.options.get(key, default)]. *)
Definition options_get (s : Session) (key : string) (dflt : pyval) : pyval :=
  default dflt (options s !! key).

(** An entry of the [TARGET] dict: a target class, called with the session. *)
Definition TargetClass : Type := Session -> extcall Target.

(** The module-level state the class works on: the global [TARGET] dict, the
    outside world, and the trace. *)
Record Env : Type := mkEnv {
  TARGET : gmap string TargetClass;
  world : World;
  trace : list event
}.

Definition emit (ev : event) : M Env unit :=
  modify (fun env => mkEnv (TARGET env) (world env) (trace env ++ [ev])).

(** Run a collaborator's operation on the world and record how it ended. *)
Definition extern {A : Type} (ev : option exn -> event) (f : extcall A)
  : M Env A :=
  fun env =>
    let '(r, w) := f (world env) in
    (r, mkEnv (TARGET env) w (trace env ++ [ev (raised r)])).

(** A pack loader works on the [TARGET] dict and the world. *)
Definition PackLoader : Type :=
  gmap string TargetClass * World ->
  result unit * (gmap string TargetClass * World).

Definition run_loader {A : Type} (ev : option exn -> event)
    (f : gmap string TargetClass * World ->
         result A * (gmap string TargetClass * World)) : M Env A :=
  fun env =>
    let '(r, (reg, w)) := f (TARGET env, world env) in
    (r, mkEnv reg w (trace env ++ [ev (raised r)])).

Definition log (lvl : level) (msg : string) : M Env unit :=
  emit (EvLog lvl msg).

(** [pack_target.PackTargets.populate_targets_from_pack] and
    [pack_target.ManagedPacks.populate_target]: both live outside this module
    and are taken as given. *)
Variable populate_targets_from_pack : pyval -> PackLoader.
Variable populate_target : string -> PackLoader.

(** [GraphNode.add_child], of the base class in [pyocd.utility.graph]: it
    links the node it is handed into the tree below the board, writing to
    that node.  It lives outside this module and is taken as given; like any
    call it may raise.  ([GraphNode.__init__], which the constructor calls
    first, only sets the link fields of the new board itself: nothing the
    caller passes in reaches it, and it is left out.) *)
Variable add_child : Target -> extcall unit.

(** ** The Board *)

Record Board : Type := mkBoard {
  _session : Session;
  _target_type : string;
  _test_binary : pyval;
  _delegate : option Delegate;
  _inited : bool;
  target : Target
}.

(** [key in TARGET] *)
Definition TARGET_contains (key : string) : M Env bool :=
  reg <- gets TARGET ;;
  let found := bool_decide (key ∈ dom reg) in
  emit (EvContains key found) ;;;
  ret found.

(** [TARGET[key]] *)
Definition TARGET_getitem (key : string) : M Env TargetClass :=
  reg <- gets TARGET ;;
  match reg !! key with
  | Some cls => emit (EvGetitem key true) ;;; ret cls
  | None => emit (EvGetitem key false) ;;; raise (KeyError key)
  end.

Definition not_recognized (target_type : string) : string :=
  ("Target '" +:+ target_type) +:+
  "' not recognized. Use the 'pyocd list --targets' command to see all available targets.".

Definition generic_warning : string :=
  "Generic cortex_m target type is selected; is this intentional? You will be able to debug but not program flash. To set the target type use the '--target' argument or target_type option. Use 'pyocd list --targets' to see available targets.".

(** Lines 42-44 of [Board.__init__]: create targets from the provided
    CMSIS pack. *)
Definition populate_from_provided_pack (session : Session) : M Env unit :=
  match options session !! "pack" with
  | Some pack =>
      if is_not_None pack
      then run_loader (EvPopulatePack pack) (populate_targets_from_pack pack)
      else ret tt
  | None => ret tt
  end.

(** Lines 46-48 of [Board.__init__]: create targets from the
    cmsis-pack-manager cache.  [target] is the argument after defaulting,
    [target_type] its lower-cased form. *)
Definition populate_from_managed_packs (target target_type : string)
  : M Env unit :=
  known <- TARGET_contains target_type ;;
  if negb known
  then run_loader (EvPopulateManaged target) (populate_target target)
  else ret tt.

(** Lines 42-48 of [Board.__init__]: the explicit pack, then the managed
    packs. *)
Definition populate_from_packs (session : Session) (target target_type : string)
  : M Env unit :=
  populate_from_provided_pack session ;;;
  populate_from_managed_packs target target_type.

(** Lines 50-56 of [Board.__init__]: look the class up and call it; a
    [KeyError] from either is turned into a [TargetSupportError]. *)
Definition create_target (session : Session) (target_type : string)
  : M Env Target :=
  try_except
    (cls <- TARGET_getitem target_type ;;
     extern (EvConstruct target_type) (cls session))
    (fun exc =>
       match exc with
       | KeyError _ => raise (TargetSupportError (not_recognized target_type) exc)
       | _ => raise exc
       end).

(** [Board.__init__(self, session, target=None)].  The board is returned
    once the last statement, [self.add_child(self.target)], has returned. *)
Definition __init__ (session : Session) (target : option string) : M Env Board :=
  let target := match target with None => "cortex_m" | Some t => t end in
  let target_type := lower target in
  let test_binary := options_get session "test_binary" PyNone in
  populate_from_packs session target target_type ;;;
  tgt <- create_target session target_type ;;
  log INFO ("Target type is " +:+ target_type) ;;;
  (if String.eqb target_type "cortex_m"
   then log WARNING generic_warning
   else ret tt) ;;;
  extern EvAddChild (add_child tgt) ;;;
  ret (mkBoard session target_type test_binary None false tgt).

(** *** Properties *)

Definition session (self : Board) : Session := _session self.
Definition delegate (self : Board) : option Delegate := _delegate self.
Definition unique_id (self : Board) : string := probe_unique_id (probe (session self)).
Definition target_type (self : Board) : string := _target_type self.
Definition test_binary (self : Board) : pyval := _test_binary self.
Definition name (self : Board) : string := "generic".

Definition description (self : Board) : string :=
  ((((("Generic board via " +:+ vendor_name (probe (session self))) +:+ " ")
       +:+ product_name (probe (session self))) +:+ " [")
     +:+ target_type self) +:+ "]".

(** *** Methods

    A method runs on the board it is called on and on the module state. *)
Definition Meth (A : Type) : Type := M (Board * Env) A.

Definition in_env {A : Type} (m : M Env A) : Meth A :=
  fun '(self, env) => let '(r, env') := m env in (r, (self, env')).

Definition getattr {A : Type} (f : Board -> A) : Meth A :=
  gets (fun s => f (fst s)).

(** The [delegate] setter. *)
Definition set_delegate (the_delegate : option Delegate) : Meth unit :=
  modify (fun '(self, env) =>
    (mkBoard (_session self) (_target_type self) (_test_binary self)
             the_delegate (_inited self) (target self), env)).

Definition set_inited (v : bool) : Meth unit :=
  modify (fun '(self, env) =>
    (mkBoard (_session self) (_target_type self) (_test_binary self)
             (_delegate self) v (target self), env)).

Definition view (self : Board) : BoardView :=
  mkBoardView (_target_type self) (_inited self).

(** [if hasattr(delegate, hook): delegate.hook(board=self)] *)
Definition call_hook (ev : option exn -> event)
    (hook : option (BoardView -> extcall unit)) : Meth unit :=
  match hook with
  | Some f => v <- getattr view ;; in_env (extern ev (f v))
  | None => ret tt
  end.

(** [Board.init(self)] *)
Definition init : Meth unit :=
  (d <- getattr delegate ;;
   s <- getattr session ;;
   match d, session_delegate s with
   | None, Some sd => set_delegate (Some sd)
   | _, _ => ret tt
   end) ;;;
  (d <- getattr delegate ;;
   match d with
   | Some dl => call_hook EvWillConnect (will_connect dl)
   | None => ret tt
   end) ;;;
  (t <- getattr target ;; in_env (extern EvTargetInit (Target_init t))) ;;;
  set_inited true ;;;
  (d <- getattr delegate ;;
   match d with
   | Some dl => call_hook EvDidConnect (did_connect dl)
   | None => ret tt
   end).

(** [Board.uninit(self)].  The record of [log.debug] keeps the format string:
    its argument is the board's default object representation. *)
Definition uninit : Meth unit :=
  inited <- getattr _inited ;;
  if inited
  then
    in_env (log DEBUG "uninit board %s") ;;;
    try_except
      (s <- getattr session ;;
       let resume := options_get s "resume_on_disconnect" (PyBool true) in
       t <- getattr target ;;
       in_env (extern (EvDisconnect resume) (Target_disconnect t resume)) ;;;
       set_inited false)
      (fun _ => in_env (log ERROR "link exception during target disconnect:"))
  else ret tt.

End Model.

(** ** Vocabulary of the properties *)

Section Vocabulary.

Context {World : Type}.

(** The events recorded between two states of the module. *)
Definition since (env env' : @Env World) : list event :=
  drop (length (trace env)) (trace env').

(** The delegate [init] works with: the board's own, else the session's. *)
Definition effective_delegate (self : @Board World) : option Delegate :=
  match _delegate self with
  | Some d => Some d
  | None => session_delegate (session self)
  end.

(** The calls [init] has to make, in order, for a given delegate; each is
    written as the event of a call that returned. *)
Definition schedule (d : option (@Delegate World)) : list event :=
  (match d with
   | Some (mkDelegate (Some _) _) => [EvWillConnect None]
   | _ => []
   end)
  ++ [EvTargetInit None]
  ++ (match d with
      | Some (mkDelegate _ (Some _)) => [EvDidConnect None]
      | _ => []
      end).

(** The event of the same call, had it raised [e]. *)
Definition failed (e : exn) (ev : event) : event :=
  match ev with
  | EvPopulatePack p _ => EvPopulatePack p (Some e)
  | EvPopulateManaged n _ => EvPopulateManaged n (Some e)
  | EvConstruct k _ => EvConstruct k (Some e)
  | EvWillConnect _ => EvWillConnect (Some e)
  | EvTargetInit _ => EvTargetInit (Some e)
  | EvDidConnect _ => EvDidConnect (Some e)
  | EvDisconnect r _ => EvDisconnect r (Some e)
  | EvAddChild _ => EvAddChild (Some e)
  | _ => ev
  end.

(** A hook that may be missing, as a call that then does nothing. *)
Definition run_hook (hook : option (BoardView -> @extcall World unit))
    (v : BoardView) : extcall unit :=
  match hook with
  | Some f => f v
  | None => fun w => (Ok tt, w)
  end.

Definition is_generic_warning (ev : event) : bool :=
  match ev with
  | EvLog WARNING msg => String.eqb msg generic_warning
  | _ => false
  end.

Definition count_generic_warnings (evs : list event) : nat :=
  length (List.filter is_generic_warning evs).

(** The identifier an event carries is the one it should be, for a request
    spelled [target]: registry events carry the lower-cased identifier, the
    managed-pack query carries the request as spelled. *)
Definition carries (target : string) (ev : event) : Prop :=
  match ev with
  | EvContains k _ | EvGetitem k _ | EvConstruct k _ => k = lower target
  | EvPopulateManaged n _ => n = target
  | _ => True
  end.

(** An event with the argument of a managed-pack query lower-cased. *)
Definition lower_query (ev : event) : event :=
  match ev with
  | EvPopulateManaged n r => EvPopulateManaged (lower n) r
  | _ => ev
  end.

(** A hook of a delegate that may be missing altogether. *)
Definition hook_of (d : option (@Delegate World))
    (hook : @Delegate World -> option (BoardView -> @extcall World unit))
  : option (BoardView -> @extcall World unit) :=
  match d with
  | Some dl => hook dl
  | None => None
  end.

End Vocabulary.

(** The target type the constructor works with before lower-casing. *)
Definition requested_or_default (target : option string) : string :=
  match target with
  | None => "cortex_m"
  | Some t => t
  end.

(** What the constructor raises when creating the target raised [e]. *)
Definition reported (target_type : string) (e : exn) : exn :=
  match e with
  | KeyError _ => TargetSupportError (not_recognized target_type) e
  | _ => e
  end.

(** Whether the session's options name a pack file. *)
Definition pack_given {World : Type} (s : @Session World) : bool :=
  match options s !! "pack" with
  | Some pack => is_not_None pack
  | None => false
  end.

Definition count (p : event -> bool) (evs : list event) : nat :=
  length (List.filter p evs).

Definition is_pack_load (ev : event) : bool :=
  match ev with EvPopulatePack _ _ => true | _ => false end.

Definition is_managed_query (ev : event) : bool :=
  match ev with EvPopulateManaged _ _ => true | _ => false end.

Definition is_failed_contains (ev : event) : bool :=
  match ev with EvContains _ false => true | _ => false end.

Definition is_log (ev : event) : bool :=
  match ev with EvLog _ _ => true | _ => false end.

(** Whether a target class has returned a target. *)
Definition target_created (evs : list event) : bool :=
  existsb
    (fun ev => match ev with EvConstruct _ None => true | _ => false end) evs.

Definition is_target_init (ev : event) : bool :=
  match ev with EvTargetInit _ => true | _ => false end.

Definition is_did_connect (ev : event) : bool :=
  match ev with EvDidConnect _ => true | _ => false end.

(** ** Concrete collaborators

    The world of these scenarios counts the transfers the probe has made. *)

Module Scenario.

Definition returns : @extcall nat unit := fun w => (Ok tt, S w).

Definition raises (name : string) : @extcall nat unit :=
  fun w => (Raise (OtherError name), S w).

(** A target whose operations work. *)
Definition good_target : @Target nat := mkTarget returns (fun _ => returns).

(** A target that comes up but whose link is then lost. *)
Definition stuck_target : @Target nat :=
  mkTarget returns (fun _ => raises "TransferError").

Definition good_class : @TargetClass nat := fun _ w => (Ok good_target, w).
Definition stuck_class : @TargetClass nat := fun _ w => (Ok stuck_target, w).

(** The built-in registry. *)
Definition builtin : gmap string (@TargetClass nat) :=
  {[ "cortex_m" := good_class; "nrf52" := good_class;
     "lpc1768" := stuck_class ]}.

(** Linking the target into the board's tree: it works, or it fails for a
    target that cannot be written to. *)
Definition link : @Target nat -> @extcall nat unit := fun _ w => (Ok tt, w).
Definition no_link : @Target nat -> @extcall nat unit :=
  fun _ w => (Raise (OtherError "AttributeError"), w).

(** Pack sources that hold nothing. *)
Definition no_pack : pyval -> @PackLoader nat := fun _ st => (Ok tt, st).
Definition no_managed : string -> @PackLoader nat := fun _ st => (Ok tt, st).

(** A managed source holding one device, found only under its exact name. *)
Definition exact_managed : string -> @PackLoader nat :=
  fun name '(reg, w) =>
    if String.eqb name "stm32f429xi"
    then (Ok tt, (<["stm32f429xi" := good_class]> reg, w))
    else (Ok tt, (reg, w)).

(** The same source, comparing names without regard to case. *)
Definition caseless_managed : string -> @PackLoader nat :=
  fun name => exact_managed (lower name).

Definition acme : Probe := mkProbe "0240000034544e45" "ACME" "Probe1".

Definition quiet : @Delegate nat := mkDelegate None None.

Definition observer : @Delegate nat :=
  mkDelegate (Some (fun _ => returns)) (Some (fun _ => returns)).

(** A delegate whose post-connect hook fails. *)
Definition faulty : @Delegate nat :=
  mkDelegate (Some (fun _ => returns)) (Some (fun _ => raises "HookError")).

Definition plain_session : @Session nat := mkSession ∅ acme None false.

Definition session_with (d : @Delegate nat) : @Session nat :=
  mkSession ∅ acme (Some d) false.

Definition env0 (reg : gmap string (@TargetClass nat)) : @Env nat :=
  mkEnv reg 0 [].

Definition board_of (s : @Session nat) (type : string) (inited : bool)
    (t : @Target nat) : @Board nat :=
  mkBoard s type PyNone None inited t.

(** A target that does not come up. *)
Definition dead_target : @Target nat :=
  mkTarget (raises "TransferFaultError") (fun _ => returns).

(** A delegate whose pre-connect hook fails. *)
Definition refusing : @Delegate nat :=
  mkDelegate (Some (fun _ => raises "HookError")) (Some (fun _ => returns)).

(** A target class whose own constructor trips over a missing key. *)
Definition keyerror_class : @TargetClass nat :=
  fun _ w => (Raise (KeyError "flash_algo"), S w).

(** A target class that fails for another reason. *)
Definition failing_class : @TargetClass nat :=
  fun _ w => (Raise (OtherError "ProbeError"), S w).

(** A pack file that cannot be read. *)
Definition broken_pack : pyval -> @PackLoader nat :=
  fun _ '(reg, w) => (Raise (OtherError "MalformedCmsisPackError"), (reg, S w)).

(** A pack file that brings its own definition of the nrf52. *)
Definition vendor_pack : pyval -> @PackLoader nat :=
  fun _ '(reg, w) => (Ok tt, (<["nrf52" := stuck_class]> reg, S w)).

(** A managed source that cannot be reached. *)
Definition offline_managed : string -> @PackLoader nat :=
  fun _ '(reg, w) => (Raise (OtherError "IndexError"), (reg, w)).

Definition pack_session : @Session nat :=
  mkSession {[ "pack" := PyStr "vendor.pack" ]} acme None false.

(** A session that asks for the target to be left halted on disconnect. *)
Definition halting_session : @Session nat :=
  mkSession {[ "resume_on_disconnect" := PyBool false ]} acme None false.

(** A registry whose generic target cannot be created. *)
Definition broken_registry : gmap string (@TargetClass nat) :=
  {[ "cortex_m" := failing_class ]}.

Definition faulty_registry : gmap string (@TargetClass nat) :=
  {[ "cortex_m" := good_class; "k64f" := keyerror_class;
     "k66f" := failing_class ]}.

End Scenario.

(** ** Properties *)

(** Unfolding of the method bodies down to the collaborators' calls. *)
Ltac run_method :=
  unfold init, uninit, call_hook, bind, try_except, getattr, gets, in_env,
    log, emit, modify, extern, set_inited, set_delegate, ret, raise,
    delegate, session, view;
  simpl.

(** Case analysis on the outcome of the next collaborator call. *)
Ltac next_call :=
  match goal with
  | |- context [let '(_, _) := ?f ?w in _] =>
      let r := fresh "r" in
      let e := fresh "e" in
      let w' := fresh "w" in
      let H := fresh "Hcall" in
      destruct (f w) as [[[]|e] w'] eqn:H; simpl
  end.

(** Unfolding of the constructor down to the collaborators' calls. *)
Ltac run_constructor :=
  unfold __init__, populate_from_packs, populate_from_provided_pack,
    populate_from_managed_packs, create_target, TARGET_contains,
    TARGET_getitem, run_loader, extern, log, emit, modify, bind, try_except,
    gets, ret, raise;
  simpl.

(** The events recorded from [env] on, when the trace has only grown. *)
Ltac read_since :=
  unfold since; simpl; rewrite <- ?app_assoc; rewrite drop_app_length; simpl.

(** Case analysis on what the constructor branches on next: the request,
    the [pack] option, a loader's answer, the membership test, the registry
    entry, the target class's answer, the kind of exception, the name. *)
Ltac constructor_step :=
  match goal with
  | |- context [match ?t with Some _ => _ | None => _ end] =>
      is_var t; destruct t
  | |- context [options ?s !! ?k] => destruct (options s !! k) eqn:?
  | |- context [is_not_None ?p] => destruct (is_not_None p) eqn:?
  | |- context [match ?f (?reg, ?w) with _ => _ end] =>
      destruct (f (reg, w)) as [[[]|?] [? ?]] eqn:?
  | |- context [bool_decide ?P] => destruct (bool_decide P) eqn:?
  | |- context [match ?m !! ?k with _ => _ end] => destruct (m !! k) eqn:?
  | |- context [match ?c ?s ?w with _ => _ end] =>
      is_var c; destruct (c s w) as [[?|?] ?] eqn:?
  | |- context [match ?e with KeyError _ => _ | _ => _ end] =>
      is_var e; destruct e
  | |- context [String.eqb ?a ?b] => destruct (String.eqb a b) eqn:?
  end; simpl.

Ltac constructor_cases := repeat constructor_step.

(** *** Strings *)

Lemma append_cons (x : ascii) (a b : string) :
  String x a +:+ b = String x (a +:+ b).
Proof. reflexivity. Qed.

Lemma append_assoc (a b c : string) : (a +:+ b) +:+ c = a +:+ (b +:+ c).
Proof.
  induction a as [|x a IH]; [reflexivity|].
  rewrite !append_cons, IH. reflexivity.
Qed.

Lemma lower_char_idem c : lower_char (lower_char c) = lower_char c.
Proof.
  destruct c as [[] [] [] [] [] [] [] []]; reflexivity.
Qed.

Lemma lower_idem s : lower (lower s) = lower s.
Proof.
  induction s as [|c s IH]; simpl; [reflexivity|].
  rewrite lower_char_idem, IH. reflexivity.
Qed.

(** *** The lifecycle *)

Section Lifecycle.

Context {World : Type}.

Implicit Types (self : @Board World) (env : @Env World).

Lemma since_app env env' evs :
  trace env' = trace env ++ evs -> since env env' = evs.
Proof.
  intros H. unfold since. rewrite H. apply drop_app_length.
Qed.

(** [uninit] on a board that is not initialised. *)
Lemma uninit_skips_when_flag_clear self env :
  _inited self = false ->
  uninit (self, env) = (Ok tt, (self, env)).
Proof.
  intros H. unfold uninit, bind, getattr, gets. simpl. rewrite H. reflexivity.
Qed.

(** C8: [uninit] on a board whose lifecycle flag is false calls nothing,
    raises nothing and leaves the board and the module state as they were. *)
Theorem uninit_not_inited_is_noop self env :
  _inited self = false ->
  uninit (self, env) = (Ok tt, (self, env)) /\
  since env (snd (snd (uninit (self, env)))) = [].
Proof.
  intros H. rewrite (uninit_skips_when_flag_clear self env H).
  split; [reflexivity|]. unfold since. simpl. apply drop_all.
Qed.

(** [uninit] on an initialised board whose disconnect raises. *)
Lemma uninit_disconnect_raises self env e w' :
  _inited self = true ->
  Target_disconnect (target self)
    (options_get (session self) "resume_on_disconnect" (PyBool true))
    (world env) = (Raise e, w') ->
  uninit (self, env) =
    (Ok tt,
     (self,
      mkEnv (TARGET env) w'
        (trace env ++
         [EvLog DEBUG "uninit board %s";
          EvDisconnect
            (options_get (session self) "resume_on_disconnect" (PyBool true))
            (Some e);
          EvLog ERROR "link exception during target disconnect:"]))).
Proof.
  intros Hi Hd.
  unfold uninit, bind, try_except, getattr, gets, in_env, log, emit, modify,
    extern, set_inited.
  simpl. rewrite Hi. simpl. rewrite Hd. simpl.
  rewrite <- !app_assoc. reflexivity.
Qed.

(** [uninit] on an initialised board whose disconnect returns. *)
Lemma uninit_disconnect_returns self env w' :
  _inited self = true ->
  Target_disconnect (target self)
    (options_get (session self) "resume_on_disconnect" (PyBool true))
    (world env) = (Ok tt, w') ->
  uninit (self, env) =
    (Ok tt,
     (mkBoard (_session self) (_target_type self) (_test_binary self)
        (_delegate self) false (target self),
      mkEnv (TARGET env) w'
        (trace env ++
         [EvLog DEBUG "uninit board %s";
          EvDisconnect
            (options_get (session self) "resume_on_disconnect" (PyBool true))
            None]))).
Proof.
  intros Hi Hd.
  unfold uninit, bind, try_except, getattr, gets, in_env, log, emit, modify,
    extern, set_inited.
  simpl. rewrite Hi. simpl. rewrite Hd. simpl.
  rewrite <- !app_assoc. reflexivity.
Qed.

(** [uninit] on an initialised board, in terms of the disconnect call it
    makes. *)
Lemma uninit_calls_disconnect self env :
  _inited self = true ->
  uninit (self, env) =
    match
      Target_disconnect (target self)
        (options_get (session self) "resume_on_disconnect" (PyBool true))
        (world env)
    with
    | (Ok _, w) =>
        (Ok tt,
         (mkBoard (_session self) (_target_type self) (_test_binary self)
            (_delegate self) false (target self),
          mkEnv (TARGET env) w
            (trace env ++
             [EvLog DEBUG "uninit board %s";
              EvDisconnect
                (options_get (session self) "resume_on_disconnect"
                   (PyBool true))
                None])))
    | (Raise e, w) =>
        (Ok tt,
         (self,
          mkEnv (TARGET env) w
            (trace env ++
             [EvLog DEBUG "uninit board %s";
              EvDisconnect
                (options_get (session self) "resume_on_disconnect"
                   (PyBool true))
                (Some e);
              EvLog ERROR "link exception during target disconnect:"])))
    end.
Proof.
  intros Hi.
  destruct (Target_disconnect (target self)
              (options_get (session self) "resume_on_disconnect" (PyBool true))
              (world env)) as [[[]|e] w] eqn:Hd.
  - apply (uninit_disconnect_returns _ _ _ Hi Hd).
  - apply (uninit_disconnect_raises _ _ _ _ Hi Hd).
Qed.

(** C9: when the target's disconnect raises on an initialised board,
    [uninit] returns the board as it was, its lifecycle flag still true; a
    later [uninit] of that board, whatever the module state then is, is
    therefore no no-op: it applies the target's disconnect again, to the
    world of that moment, and ends as that call ends. *)
Theorem uninit_failed_disconnect_keeps_flag self env e w' :
  _inited self = true ->
  Target_disconnect (target self)
    (options_get (session self) "resume_on_disconnect" (PyBool true))
    (world env) = (Raise e, w') ->
  uninit (self, env) =
    (Ok tt,
     (self,
      mkEnv (TARGET env) w'
        (trace env ++
         [EvLog DEBUG "uninit board %s";
          EvDisconnect
            (options_get (session self) "resume_on_disconnect" (PyBool true))
            (Some e);
          EvLog ERROR "link exception during target disconnect:"]))) /\
  _inited (fst (snd (uninit (self, env)))) = true /\
  forall env2,
    uninit (fst (snd (uninit (self, env))), env2) =
      match
        Target_disconnect (target self)
          (options_get (session self) "resume_on_disconnect" (PyBool true))
          (world env2)
      with
      | (Ok _, w) =>
          (Ok tt,
           (mkBoard (_session self) (_target_type self) (_test_binary self)
              (_delegate self) false (target self),
            mkEnv (TARGET env2) w
              (trace env2 ++
               [EvLog DEBUG "uninit board %s";
                EvDisconnect
                  (options_get (session self) "resume_on_disconnect"
                     (PyBool true))
                  None])))
      | (Raise e2, w) =>
          (Ok tt,
           (self,
            mkEnv (TARGET env2) w
              (trace env2 ++
               [EvLog DEBUG "uninit board %s";
                EvDisconnect
                  (options_get (session self) "resume_on_disconnect"
                     (PyBool true))
                  (Some e2);
                EvLog ERROR "link exception during target disconnect:"])))
      end.
Proof.
  intros Hi Hd.
  rewrite (uninit_disconnect_raises self env e w' Hi Hd). simpl.
  split; [reflexivity|]. split; [exact Hi|].
  intros env2. apply (uninit_calls_disconnect self env2 Hi).
Qed.

(** C7: when the target's disconnect raises on an initialised board,
    [uninit] records the error in the log and returns normally: the caller
    sees no exception. *)
Theorem uninit_swallows_disconnect_error self env e w' :
  _inited self = true ->
  Target_disconnect (target self)
    (options_get (session self) "resume_on_disconnect" (PyBool true))
    (world env) = (Raise e, w') ->
  exists env',
    uninit (self, env) = (Ok tt, (self, env')) /\
    world env' = w' /\
    TARGET env' = TARGET env /\
    trace env' =
      trace env ++
      [EvLog DEBUG "uninit board %s";
       EvDisconnect
         (options_get (session self) "resume_on_disconnect" (PyBool true))
         (Some e);
       EvLog ERROR "link exception during target disconnect:"].
Proof.
  intros Hi Hd. eexists. split.
  - apply (uninit_disconnect_raises self env e w' Hi Hd).
  - simpl. auto.
Qed.

(** C10: when the target's init step returns and the delegate's
    [did_connect] hook then raises, [init] raises that error to the caller,
    and the lifecycle flag of the board is already true. *)
Theorem init_did_connect_raises_flag_set self env d hook e w1 w2 w3 :
  effective_delegate self = Some d ->
  run_hook (will_connect d) (view self) (world env) = (Ok tt, w1) ->
  Target_init (target self) w1 = (Ok tt, w2) ->
  did_connect d = Some hook ->
  hook (mkBoardView (_target_type self) true) w2 = (Raise e, w3) ->
  exists self' env',
    init (self, env) = (Raise e, (self', env')) /\
    _inited self' = true /\
    world env' = w3.
Proof.
  intros Hd Hw Ht Hh Hr.
  destruct self as [s ty tb dl i t].
  unfold effective_delegate in Hd. simpl in *.
  destruct d as [wc dc]. simpl in *. subst dc.
  unfold session in Hd. simpl in Hd.
  destruct dl as [d'|]; [inversion Hd; subst d'|];
    run_method; rewrite ?Hd; simpl; destruct wc as [f|]; simpl in *.
  all: unfold view in Hw; simpl in Hw;
    try rewrite Hw; try (inversion Hw; subst w1); simpl;
    rewrite Ht; simpl; rewrite Hr; simpl; do 2 eexists; split;
    [reflexivity|split; reflexivity].
Qed.

(** [init], path by path, in terms of the calls it makes: the
    [will_connect] hook on the world as it is, the target's init on the world
    that hook left, the [did_connect] hook on the world the target's init
    left; a hook that is missing is skipped. *)
Lemma init_calls self env :
  let d := effective_delegate self in
  let '(r, (self', env')) := init (self, env) in
  match run_hook (hook_of d will_connect) (view self) (world env) with
  | (Raise e, w1) =>
      r = Raise e /\ world env' = w1 /\ _inited self' = _inited self /\
      trace env' = trace env ++ [EvWillConnect (Some e)]
  | (Ok _, w1) =>
      match Target_init (target self) w1 with
      | (Raise e, w2) =>
          r = Raise e /\ world env' = w2 /\ _inited self' = _inited self /\
          trace env' =
            trace env ++
            match hook_of d will_connect with
            | Some _ => [EvWillConnect None]
            | None => []
            end ++ [EvTargetInit (Some e)]
      | (Ok _, w2) =>
          let '(r3, w3) :=
            run_hook (hook_of d did_connect)
              (mkBoardView (_target_type self) true) w2 in
          r = r3 /\ world env' = w3 /\ _inited self' = true /\
          trace env' =
            trace env ++
            match hook_of d will_connect with
            | Some _ => [EvWillConnect None]
            | None => []
            end ++ [EvTargetInit None] ++
            match hook_of d did_connect with
            | Some _ => [EvDidConnect (raised r3)]
            | None => []
            end
      end
  end.
Proof.
  destruct self as [s ty tb dl i t], s as [o p sd lt].
  unfold effective_delegate, hook_of, run_hook.
  destruct dl as [[wc dc]|]; [|destruct sd as [[wc dc]|]];
    run_method; try destruct wc as [f|]; try destruct dc as [g|]; simpl;
    repeat next_call; rewrite <- ?app_assoc; simpl;
    repeat split; reflexivity.
Qed.

(** C6: [init] makes the calls of [schedule], in that order: the
    [will_connect] hook if the delegate has one, then the target's init, then
    the [did_connect] hook if the delegate has one.  It returns when all of
    them returned, and raises only what one of these calls raised, having
    stopped there; a missing hook or a missing delegate is skipped.  The
    calls are really made: the hook before the target's init is applied to
    the world [init] found, the target's init to the world that hook left,
    the hook after it to the world the target's init left, and [init] ends
    with the outcome and the world of the last call made. *)
Theorem init_runs_schedule self env :
  (let '(r, (_, env')) := init (self, env) in
   match r with
   | Ok _ => trace env' = trace env ++ schedule (effective_delegate self)
   | Raise e =>
       exists pre ev post,
         schedule (effective_delegate self) = pre ++ ev :: post /\
         trace env' = trace env ++ pre ++ [failed e ev]
   end) /\
  (let d := effective_delegate self in
   let '(r, (self', env')) := init (self, env) in
   match run_hook (hook_of d will_connect) (view self) (world env) with
   | (Raise e, w1) =>
       r = Raise e /\ world env' = w1 /\ _inited self' = _inited self /\
       trace env' = trace env ++ [EvWillConnect (Some e)]
   | (Ok _, w1) =>
       match Target_init (target self) w1 with
       | (Raise e, w2) =>
           r = Raise e /\ world env' = w2 /\ _inited self' = _inited self /\
           trace env' =
             trace env ++
             match hook_of d will_connect with
             | Some _ => [EvWillConnect None]
             | None => []
             end ++ [EvTargetInit (Some e)]
       | (Ok _, w2) =>
           let '(r3, w3) :=
             run_hook (hook_of d did_connect)
               (mkBoardView (_target_type self) true) w2 in
           r = r3 /\ world env' = w3 /\ _inited self' = true /\
           trace env' =
             trace env ++
             match hook_of d will_connect with
             | Some _ => [EvWillConnect None]
             | None => []
             end ++ [EvTargetInit None] ++
             match hook_of d did_connect with
             | Some _ => [EvDidConnect (raised r3)]
             | None => []
             end
       end
   end).
Proof.
  split; [|apply init_calls].
  destruct self as [s ty tb dl i t], s as [o p sd lt].
  unfold effective_delegate, schedule.
  destruct dl as [[wc dc]|]; [|destruct sd as [[wc dc]|]];
    run_method; try destruct wc as [f|]; try destruct dc as [g|]; simpl;
    repeat next_call; rewrite <- ?app_assoc; simpl;
    try reflexivity.
  all: try (exists [], (EvWillConnect None); eexists; split; reflexivity).
  all: try (exists [], (EvTargetInit None); eexists; split; reflexivity).
  all: try (exists [EvWillConnect None], (EvTargetInit None); eexists;
            split; reflexivity).
  all: try (exists [EvTargetInit None], (EvDidConnect None); eexists;
            split; reflexivity).
  all: try (exists [EvWillConnect None; EvTargetInit None], (EvDidConnect None);
            eexists; split; reflexivity).
Qed.

(** C2, amended: [description] is the text ["Generic board via "] followed
    by the probe's vendor name, a space, its product name, and the target
    type in square brackets. *)
Theorem description_format self :
  description self =
    "Generic board via " +:+
    (vendor_name (probe (session self)) +:+ " " +:+
     product_name (probe (session self)) +:+ " [" +:+ target_type self +:+ "]").
Proof.
  unfold description. rewrite !append_assoc. reflexivity.
Qed.

End Lifecycle.

(** *** Construction *)

Section Construction.

Context {World : Type}.
Variable populate_targets_from_pack : pyval -> @PackLoader World.
Variable populate_target : string -> @PackLoader World.
Variable add_child : @Target World -> @extcall World unit.

Implicit Types (session : @Session World) (env : @Env World).

Abbreviation construct :=
  (__init__ populate_targets_from_pack populate_target add_child).
Abbreviation populate :=
  (populate_from_packs populate_targets_from_pack populate_target).

(** C5: when the identifier is still missing from the registry after the
    pack sources have been consulted, construction raises the
    target-not-found error ([TargetSupportError]), with a message that quotes
    the identifier; no board is returned. *)
Theorem unknown_target_is_refused session target env env1 :
  let requested := match target with None => "cortex_m" | Some t => t end in
  populate session requested (lower requested) env = (Ok tt, env1) ->
  TARGET env1 !! lower requested = None ->
  exists env',
    construct session target env =
      (Raise
         (TargetSupportError
            ("Target '" +:+ lower requested +:+
             "' not recognized. Use the 'pyocd list --targets' command to see all available targets.")
            (KeyError (lower requested))),
       env') /\
    TARGET env' = TARGET env1 /\
    world env' = world env1 /\
    trace env' = trace env1 ++ [EvGetitem (lower requested) false].
Proof.
  intros requested Hpop Hnone.
  unfold __init__, bind. fold requested. rewrite Hpop.
  unfold create_target, try_except, TARGET_getitem, bind, gets. simpl.
  rewrite Hnone. simpl. eexists. split.
  - unfold not_recognized. rewrite append_assoc. reflexivity.
  - simpl. auto.
Qed.

(** Every event of a construction carries the identifier it should. *)
Lemma construct_carries session s env :
  Forall (carries s) (since env (snd (construct session (Some s) env))).
Proof.
  run_constructor.
  repeat (case_match; simpl; simplify_eq/=); read_since;
    repeat constructor.
Qed.

(** C3, amended: the identifier is lower-cased before it is stored and
    before every registry test, lookup and construction, while the
    managed-pack query is made with the identifier as the caller spelled it.
    Hence constructing with [s] and with [lower s] is the same computation
    whenever the managed source is not consulted, and gives the same outcome,
    registry and world, and the same trace up to the spelling of that query,
    whenever the managed source answers the two spellings alike. *)
Theorem lookups_use_lowered_identifier session s env :
  match construct session (Some s) env with
  | (Ok b, _) => target_type b = lower s
  | (Raise _, _) => True
  end /\
  Forall (carries s) (since env (snd (construct session (Some s) env))) /\
  ((forall n r,
       ~ In (EvPopulateManaged n r)
            (since env (snd (construct session (Some s) env)))) ->
   construct session (Some s) env = construct session (Some (lower s)) env) /\
  ((forall st, populate_target s st = populate_target (lower s) st) ->
   fst (construct session (Some s) env) =
     fst (construct session (Some (lower s)) env) /\
   TARGET (snd (construct session (Some s) env)) =
     TARGET (snd (construct session (Some (lower s)) env)) /\
   world (snd (construct session (Some s) env)) =
     world (snd (construct session (Some (lower s)) env)) /\
   map lower_query (trace (snd (construct session (Some s) env))) =
     map lower_query (trace (snd (construct session (Some (lower s)) env)))).
Proof.
  split; [|split; [apply construct_carries|split]].
  - run_constructor.
    repeat (case_match; simpl; simplify_eq/=); reflexivity.
  - intros Hno. revert Hno. run_constructor. rewrite lower_idem.
    destruct (options session !! "pack") as [pack|]; simpl;
      [destruct (is_not_None pack); simpl;
       [destruct (populate_targets_from_pack pack (TARGET env, world env))
          as [[[]|e] [reg w]]; simpl; [|reflexivity]|]|].
    all: match goal with
         | |- context [bool_decide ?P] => destruct (bool_decide P)
         end; simpl; [reflexivity|].
    all: intros Hno; exfalso; revert Hno.
    all: repeat (case_match; simpl in *; simplify_eq/=).
    all: read_since; intros Hno; eapply Hno; simpl;
      repeat (first [left; reflexivity | right]).
  - intros Hsame. run_constructor. rewrite lower_idem.
    destruct (options session !! "pack") as [pack|]; simpl;
      [destruct (is_not_None pack); simpl;
       [destruct (populate_targets_from_pack pack (TARGET env, world env))
          as [[[]|e] [reg w]]; simpl; [|auto]|]|].
    all: match goal with
         | |- context [bool_decide ?P] => destruct (bool_decide P)
         end; simpl; [auto|].
    all: rewrite <- !Hsame.
    all: repeat (case_match; simpl in *; simplify_eq/=);
      rewrite ?map_app; simpl; rewrite ?lower_idem; auto.
Qed.

(** C4, amended: when the target type is omitted ([None]) the constructor
    proceeds exactly as for the request ["cortex_m"]; a construction that
    then succeeds stores ["cortex_m"] and has recorded the generic-target
    warning exactly once.  (The empty string is not a case of omission: it is
    looked up as it is.) *)
Theorem omitted_target_defaults_to_cortex_m session env :
  construct session None env = construct session (Some "cortex_m") env /\
  Forall (carries "cortex_m") (since env (snd (construct session None env))) /\
  match construct session None env with
  | (Ok b, env') =>
      target_type b = "cortex_m" /\
      count_generic_warnings (since env env') = 1
  | (Raise _, _) => True
  end.
Proof.
  split; [reflexivity|]. split; [apply (construct_carries session "cortex_m")|].
  run_constructor.
  change (lower "cortex_m") with "cortex_m".
  constructor_cases; try exact I; read_since; split; reflexivity.
Qed.

(** C1, amended: a board is constructed with the lifecycle flag false; from
    there [init] leaves it true exactly when the target's init step returned;
    and after an [uninit] in which the target's disconnect was called, the
    flag is false when that call returned and still true when it raised. *)
Theorem inited_flag_follows_target_calls :
  (forall session target env,
      match construct session target env with
      | (Ok b, _) => _inited b = false
      | (Raise _, _) => True
      end) /\
  (forall (self : @Board World) env,
      _inited self = false ->
      let '(_, (self', env')) := init (self, env) in
      _inited self' = true <-> In (EvTargetInit None) (since env env')) /\
  (forall (self : @Board World) env,
      let '(_, (self', env')) := uninit (self, env) in
      forall resume o,
        In (EvDisconnect resume o) (since env env') ->
        _inited self' = match o with None => false | Some _ => true end).
Proof.
  split; [|split].
  - intros session target env. run_constructor.
    repeat (case_match; simpl in *; simplify_eq/=); reflexivity.
  - intros [s ty tb dl i t] env Hi. simpl in Hi. subst i.
    destruct s as [o p sd lt].
    destruct dl as [[wc dc]|]; [|destruct sd as [[wc dc]|]];
      run_method; try destruct wc as [f|]; try destruct dc as [g|]; simpl;
      repeat next_call; read_since;
      (split; [intros H; try discriminate H; auto 6
              |intros H; try reflexivity;
               repeat (destruct H as [H|H]; try discriminate H);
               try contradiction]).
  - intros self env.
    destruct (_inited self) eqn:Hi.
    + destruct (Target_disconnect (target self)
                  (options_get (session self) "resume_on_disconnect"
                     (PyBool true)) (world env)) as [[[]|e] w'] eqn:Hd.
      * rewrite (uninit_disconnect_returns _ _ _ Hi Hd).
        read_since. intros resume o [H|[H|[]]]; inversion H. reflexivity.
      * rewrite (uninit_disconnect_raises _ _ _ _ Hi Hd).
        read_since. intros resume o [H|[H|[H|[]]]]; inversion H. exact Hi.
    + rewrite (uninit_skips_when_flag_clear _ _ Hi).
      unfold since. rewrite drop_all. intros resume o [].
Qed.

End Construction.

(** ** Scenarios *)

Import Scenario.

Lemma uninit_not_inited_is_noop_witness :
  uninit (board_of plain_session "nrf52" false good_target, env0 builtin) =
    (Ok tt, (board_of plain_session "nrf52" false good_target, env0 builtin)) /\
  since (env0 builtin)
    (snd (snd (uninit (board_of plain_session "nrf52" false good_target,
                       env0 builtin)))) = [].
Proof.
  exact (uninit_not_inited_is_noop
           (board_of plain_session "nrf52" false good_target) (env0 builtin)
           eq_refl).
Defined.

Lemma uninit_swallows_disconnect_error_witness :
  exists env',
    uninit (board_of plain_session "lpc1768" true stuck_target, env0 builtin) =
      (Ok tt, (board_of plain_session "lpc1768" true stuck_target, env')) /\
    world env' = 1 /\
    TARGET env' = builtin /\
    trace env' =
      [EvLog DEBUG "uninit board %s";
       EvDisconnect (PyBool true) (Some (OtherError "TransferError"));
       EvLog ERROR "link exception during target disconnect:"].
Proof.
  exact (uninit_swallows_disconnect_error
           (board_of plain_session "lpc1768" true stuck_target) (env0 builtin)
           (OtherError "TransferError") 1 eq_refl eq_refl).
Defined.

Lemma uninit_failed_disconnect_keeps_flag_witness :
  uninit (board_of plain_session "lpc1768" true stuck_target, env0 builtin) =
    (Ok tt,
     (board_of plain_session "lpc1768" true stuck_target,
      mkEnv builtin 1
        [EvLog DEBUG "uninit board %s";
         EvDisconnect (PyBool true) (Some (OtherError "TransferError"));
         EvLog ERROR "link exception during target disconnect:"])) /\
  _inited
    (fst (snd (uninit (board_of plain_session "lpc1768" true stuck_target,
                       env0 builtin)))) = true /\
  forall env2,
    uninit
      (fst (snd (uninit (board_of plain_session "lpc1768" true stuck_target,
                         env0 builtin))), env2) =
      (Ok tt,
       (board_of plain_session "lpc1768" true stuck_target,
        mkEnv (TARGET env2) (S (world env2))
          (trace env2 ++
           [EvLog DEBUG "uninit board %s";
            EvDisconnect (PyBool true) (Some (OtherError "TransferError"));
            EvLog ERROR "link exception during target disconnect:"]))).
Proof.
  exact (uninit_failed_disconnect_keeps_flag
           (board_of plain_session "lpc1768" true stuck_target) (env0 builtin)
           (OtherError "TransferError") 1 eq_refl eq_refl).
Defined.

Lemma init_did_connect_raises_flag_set_witness :
  exists self' env',
    init (board_of (session_with faulty) "nrf52" false good_target,
          env0 builtin) =
      (Raise (OtherError "HookError"), (self', env')) /\
    _inited self' = true /\
    world env' = 3.
Proof.
  exact (init_did_connect_raises_flag_set
           (board_of (session_with faulty) "nrf52" false good_target)
           (env0 builtin) faulty (fun _ => raises "HookError")
           (OtherError "HookError") 1 2 3
           eq_refl eq_refl eq_refl eq_refl eq_refl).
Defined.

Lemma unknown_target_is_refused_witness :
  exists env',
    __init__ no_pack no_managed link plain_session (Some "K64F") (env0 builtin) =
      (Raise
         (TargetSupportError
            "Target 'k64f' not recognized. Use the 'pyocd list --targets' command to see all available targets."
            (KeyError "k64f")),
       env') /\
    TARGET env' = builtin /\
    world env' = 0 /\
    trace env' =
      [EvContains "k64f" false; EvPopulateManaged "K64F" None;
       EvGetitem "k64f" false].
Proof.
  exact (unknown_target_is_refused no_pack no_managed link plain_session
           (Some "K64F") (env0 builtin)
           (mkEnv builtin 0
              [EvContains "k64f" false; EvPopulateManaged "K64F" None])
           eq_refl eq_refl).
Defined.

(** C1 as stated fails: on an initialised board whose target cannot be
    disconnected, [uninit] calls disconnect, which raises, and returns with
    the lifecycle flag still true. *)
Lemma uninit_leaves_flag_set_when_disconnect_raises :
  let '(r, (self', env')) :=
    uninit (board_of plain_session "lpc1768" true stuck_target, env0 builtin)
  in
  r = Ok tt /\
  In (EvDisconnect (PyBool true) (Some (OtherError "TransferError")))
     (trace env') /\
  _inited self' = true.
Proof.
  vm_compute. auto.
Qed.

(** C2 as stated fails: for vendor ["ACME"], product ["Probe1"] and target
    type ["nrf52"] the description is not ["ACME Probe1 [nrf52]"]. *)
Lemma description_has_generic_board_prefix :
  description (board_of plain_session "nrf52" false good_target) =
    "Generic board via ACME Probe1 [nrf52]" /\
  description (board_of plain_session "nrf52" false good_target) <>
    "ACME Probe1 [nrf52]".
Proof.
  split; [reflexivity|discriminate].
Qed.

(** C3 as stated fails: the managed-pack query is made with the identifier
    as spelled, so against a managed source that compares names exactly the
    request ["STM32F429XI"] is refused while its lower-cased form is
    constructed. *)
Lemma managed_query_is_not_lowered :
  In (EvPopulateManaged "STM32F429XI" None)
     (trace (snd (__init__ no_pack exact_managed link plain_session
                    (Some "STM32F429XI") (env0 builtin)))) /\
  lower "STM32F429XI" = "stm32f429xi" /\
  fst (__init__ no_pack exact_managed link plain_session
         (Some "STM32F429XI") (env0 builtin)) =
    Raise
      (TargetSupportError
         "Target 'stm32f429xi' not recognized. Use the 'pyocd list --targets' command to see all available targets."
         (KeyError "stm32f429xi")) /\
  match fst (__init__ no_pack exact_managed link plain_session
               (Some (lower "STM32F429XI")) (env0 builtin)) with
  | Ok b => target_type b = "stm32f429xi"
  | Raise _ => False
  end.
Proof.
  vm_compute. auto 6.
Qed.

(** C4 as stated fails: the empty string is not replaced by ["cortex_m"];
    it is looked up as it is, is not found, and no warning is recorded.  And
    an omitted target type whose generic target cannot be created is looked
    up as ["cortex_m"] but ends without a warning. *)
Lemma empty_target_is_not_defaulted :
  fst (__init__ no_pack no_managed link plain_session (Some "")
         (env0 builtin)) =
    Raise
      (TargetSupportError
         "Target '' not recognized. Use the 'pyocd list --targets' command to see all available targets."
         (KeyError "")) /\
  trace (snd (__init__ no_pack no_managed link plain_session (Some "")
                (env0 builtin))) =
    [EvContains "" false; EvPopulateManaged "" None; EvGetitem "" false] /\
  count_generic_warnings
    (trace (snd (__init__ no_pack no_managed link plain_session (Some "")
                   (env0 builtin)))) = 0 /\
  fst (__init__ no_pack no_managed link plain_session None
         (env0 broken_registry)) = Raise (OtherError "ProbeError") /\
  count_generic_warnings
    (trace (snd (__init__ no_pack no_managed link plain_session None
                   (env0 broken_registry)))) = 0.
Proof.
  vm_compute. auto 6.
Qed.

(** The built-in identifiers resolve whatever their case. *)
Example CORTEX_M_resolves_like_cortex_m :
  __init__ no_pack exact_managed link plain_session (Some "CORTEX_M") (env0 builtin)
  = __init__ no_pack exact_managed link plain_session (Some "cortex_m")
      (env0 builtin).
Proof.
  vm_compute. reflexivity.
Qed.

(** A managed source that ignores case answers both spellings alike. *)
Lemma lookups_use_lowered_identifier_witness :
  fst (__init__ no_pack caseless_managed link plain_session (Some "STM32F429XI")
         (env0 builtin)) =
    fst (__init__ no_pack caseless_managed link plain_session
           (Some (lower "STM32F429XI")) (env0 builtin)) /\
  TARGET (snd (__init__ no_pack caseless_managed link plain_session
                 (Some "STM32F429XI") (env0 builtin))) =
    TARGET (snd (__init__ no_pack caseless_managed link plain_session
                   (Some (lower "STM32F429XI")) (env0 builtin))) /\
  world (snd (__init__ no_pack caseless_managed link plain_session
                (Some "STM32F429XI") (env0 builtin))) =
    world (snd (__init__ no_pack caseless_managed link plain_session
                  (Some (lower "STM32F429XI")) (env0 builtin))) /\
  map lower_query
      (trace (snd (__init__ no_pack caseless_managed link plain_session
                     (Some "STM32F429XI") (env0 builtin)))) =
    map lower_query
      (trace (snd (__init__ no_pack caseless_managed link plain_session
                     (Some (lower "STM32F429XI")) (env0 builtin)))).
Proof.
  exact (proj2 (proj2 (proj2
           (lookups_use_lowered_identifier no_pack caseless_managed link
              plain_session "STM32F429XI" (env0 builtin))))
           (fun st => eq_refl)).
Defined.

Example caseless_source_constructs_the_device :
  match fst (__init__ no_pack caseless_managed link plain_session
               (Some "STM32F429XI") (env0 builtin)) with
  | Ok b => target_type b = "stm32f429xi"
  | Raise _ => False
  end.
Proof.
  vm_compute. reflexivity.
Qed.

(** An omitted target type: the generic target, and one warning. *)
Example omitted_target_scenario :
  match __init__ no_pack no_managed link plain_session None (env0 builtin) with
  | (Ok b, env') =>
      target_type b = "cortex_m" /\ count_generic_warnings (trace env') = 1
  | (Raise _, _) => False
  end.
Proof.
  vm_compute. auto.
Qed.

(** Construct with no target type, [init] with an observing delegate, then
    [uninit]: both hooks fire around the target's init, and disconnect is
    called with [resume] true and clears the flag. *)
Example construct_init_uninit :
  match __init__ no_pack no_managed link (session_with observer) None
          (env0 builtin) with
  | (Ok b0, env1) =>
      let '(r1, (b1, env2)) := init (b0, env1) in
      let '(r2, (b2, env3)) := uninit (b1, env2) in
      r1 = Ok tt /\ _inited b1 = true /\
      since env1 env2 = [EvWillConnect None; EvTargetInit None; EvDidConnect None] /\
      r2 = Ok tt /\ _inited b2 = false /\
      since env2 env3 =
        [EvLog DEBUG "uninit board %s"; EvDisconnect (PyBool true) None]
  | (Raise _, _) => False
  end.
Proof.
  vm_compute. auto 7.
Qed.

(** A delegate without hooks, and no delegate at all, are both accepted. *)
Example init_without_hooks :
  fst (init (board_of (session_with quiet) "nrf52" false good_target,
             env0 builtin)) = Ok tt /\
  fst (init (board_of plain_session "nrf52" false good_target,
             env0 builtin)) = Ok tt.
Proof.
  split; reflexivity.
Qed.

(** ** Further properties of construction *)

Section PackSources.

Context {World : Type}.
Variable populate_targets_from_pack : pyval -> @PackLoader World.
Variable populate_target : string -> @PackLoader World.
Variable add_child : @Target World -> @extcall World unit.

Implicit Types (session : @Session World) (env : @Env World).

Abbreviation build :=
  (__init__ populate_targets_from_pack populate_target add_child).

(** X1: the explicit pack is loaded exactly when the [pack] option is set
    and not [None], whatever the registry already holds; it is then the first
    thing the constructor does, and it is done once. *)
Theorem explicit_pack_load_follows_option session target env :
  let evs := since env (snd (build session target env)) in
  match options session !! "pack" with
  | Some pack =>
      if is_not_None pack
      then
        exists rest,
          evs =
            EvPopulatePack pack
              (raised (fst (populate_targets_from_pack pack
                              (TARGET env, world env)))) :: rest /\
          count is_pack_load rest = 0
      else count is_pack_load evs = 0
  | None => count is_pack_load evs = 0
  end.
Proof.
  run_constructor.
  destruct (options session !! "pack") as [pack|]; simpl;
    [destruct (is_not_None pack); simpl|].
  all: constructor_cases; read_since;
    try (eexists; split); reflexivity.
Qed.

(** X2: once the provided-pack step has returned, the managed pack source
    is called exactly when the identifier is missing from the registry as
    that step left it: it is then applied to that registry and world, under
    the name as spelled, and the pack steps end as it ends; when the
    identifier is there, it is not applied and registry and world stay as
    they are. *)
Theorem managed_query_follows_membership_test session target id env env1 :
  populate_from_provided_pack populate_targets_from_pack session env
    = (Ok tt, env1) ->
  populate_from_packs populate_targets_from_pack populate_target session
    target id env =
    match TARGET env1 !! id with
    | Some _ =>
        (Ok tt,
         mkEnv (TARGET env1) (world env1)
           (trace env1 ++ [EvContains id true]))
    | None =>
        let '(r, (reg, w)) :=
          populate_target target (TARGET env1, world env1) in
        (r,
         mkEnv reg w
           (trace env1 ++
            [EvContains id false; EvPopulateManaged target (raised r)]))
    end.
Proof.
  intros Hpack.
  unfold populate_from_packs, bind. rewrite Hpack.
  unfold populate_from_managed_packs, TARGET_contains, run_loader, bind,
    gets, emit, modify, ret.
  simpl.
  destruct (TARGET env1 !! id) as [cls|] eqn:Hreg.
  - rewrite bool_decide_eq_true_2 by (apply elem_of_dom; eauto).
    reflexivity.
  - rewrite bool_decide_eq_false_2
      by (rewrite elem_of_dom, Hreg; intros [x Hx]; discriminate Hx).
    simpl.
    destruct (populate_target target (TARGET env1, world env1))
      as [r [reg w]].
    rewrite <- app_assoc. reflexivity.
Qed.

(** X3: constructing a board for an identifier the registry already holds,
    with no pack file named, consults neither pack source: the registry stays
    as it was, and outcome and world are those of calling the registered
    class on the world as it was and then, if it returned a target, of
    linking that target. *)
Theorem registered_target_needs_no_pack_source session target env
    (cls : @TargetClass World) :
  pack_given session = false ->
  TARGET env !! lower (requested_or_default target) = Some cls ->
  let res := build session target env in
  let evs := since env (snd res) in
  TARGET (snd res) = TARGET env /\
  count is_pack_load evs = 0 /\
  count is_managed_query evs = 0 /\
  (fst res, world (snd res)) =
    match cls session (world env) with
    | (Ok t, w) =>
        match add_child t w with
        | (Ok _, w') =>
            (Ok (mkBoard session (lower (requested_or_default target))
                   (options_get session "test_binary" PyNone) None false t),
             w')
        | (Raise e, w') => (Raise e, w')
        end
    | (Raise e, w) =>
        (Raise (reported (lower (requested_or_default target)) e), w)
    end.
Proof.
  intros Hpack Hreg.
  assert (Hin : bool_decide (lower (requested_or_default target)
                             ∈ dom (TARGET env)) = true).
  { apply bool_decide_eq_true, elem_of_dom. eauto. }
  revert Hpack Hreg Hin. unfold pack_given, requested_or_default.
  run_constructor. intros Hpack Hreg Hin.
  destruct target as [s|]; simpl in *;
    (destruct (options session !! "pack") as [pack|]; simpl;
     [rewrite Hpack; simpl|]);
    rewrite Hin; simpl; rewrite Hreg; simpl;
    destruct (cls session (world env)) as [[t|e] w]; simpl;
    try destruct e; simpl;
    constructor_cases; simplify_eq; read_since; repeat split; reflexivity.
Qed.

(** X4: a pack file named in the options takes precedence: when it
    registers the identifier, the managed source is not queried and the board
    is built from the class the pack registered, whatever the registry held
    before. *)
Theorem supplied_pack_overrides_registry session target env pack reg w
    (cls : @TargetClass World) t w' w'' :
  options session !! "pack" = Some pack ->
  is_not_None pack = true ->
  populate_targets_from_pack pack (TARGET env, world env) = (Ok tt, (reg, w)) ->
  reg !! lower (requested_or_default target) = Some cls ->
  cls session w = (Ok t, w') ->
  add_child t w' = (Ok tt, w'') ->
  let res := build session target env in
  fst res =
    Ok (mkBoard session (lower (requested_or_default target))
          (options_get session "test_binary" PyNone) None false t) /\
  TARGET (snd res) = reg /\
  world (snd res) = w'' /\
  count is_managed_query (since env (snd res)) = 0.
Proof.
  intros Hopt Hnn Hload Hreg Hcls Hadd.
  assert (Hin : bool_decide (lower (requested_or_default target) ∈ dom reg)
                = true).
  { apply bool_decide_eq_true, elem_of_dom. eauto. }
  revert Hreg Hin Hcls. unfold requested_or_default.
  run_constructor. intros Hreg Hin Hcls.
  rewrite Hopt. simpl. rewrite Hnn. simpl. rewrite Hload. simpl.
  destruct target as [s|]; simpl in *;
    rewrite Hin; simpl; rewrite Hreg; simpl; rewrite Hcls; simpl;
    try match goal with
        | |- context [String.eqb ?a ?b] => destruct (String.eqb a b)
        end;
    simpl; rewrite Hadd; simpl; read_since; repeat split; reflexivity.
Qed.

(** X5: when the pack file cannot be loaded, the loader's exception leaves
    the constructor as it is: no registry test, no managed query, no board. *)
Theorem pack_load_error_aborts_construction session target env pack e reg w :
  options session !! "pack" = Some pack ->
  is_not_None pack = true ->
  populate_targets_from_pack pack (TARGET env, world env) = (Raise e, (reg, w)) ->
  build session target env =
    (Raise e, mkEnv reg w (trace env ++ [EvPopulatePack pack (Some e)])).
Proof.
  intros Hopt Hnn Hload. run_constructor.
  rewrite Hopt. simpl. rewrite Hnn. simpl. rewrite Hload. reflexivity.
Qed.

(** X6: when the managed source raises while it is queried for an
    identifier that the registry lacks after the provided-pack step, that
    exception leaves the constructor as it is, before any lookup: it is not
    reported as an unknown target. *)
Theorem managed_query_error_aborts_construction session target env env1 e
    reg w :
  populate_from_provided_pack populate_targets_from_pack session env
    = (Ok tt, env1) ->
  TARGET env1 !! lower (requested_or_default target) = None ->
  populate_target (requested_or_default target) (TARGET env1, world env1)
    = (Raise e, (reg, w)) ->
  build session target env =
    (Raise e,
     mkEnv reg w
       (trace env1 ++
        [EvContains (lower (requested_or_default target)) false;
         EvPopulateManaged (requested_or_default target) (Some e)])).
Proof.
  intros Hpack Hreg Hload.
  unfold __init__, populate_from_packs, bind.
  fold (requested_or_default target). rewrite Hpack.
  unfold populate_from_managed_packs, TARGET_contains, run_loader, bind,
    gets, emit, modify, ret.
  simpl.
  rewrite bool_decide_eq_false_2
    by (rewrite elem_of_dom, Hreg; intros [x Hx]; discriminate Hx).
  simpl. rewrite Hload. simpl. rewrite <- app_assoc. reflexivity.
Qed.

(** X7: when the registered target class raises, a [KeyError] from inside it
    is reported as an unrecognised target, although the identifier is in the
    registry; any other exception reaches the caller unchanged.  No log
    record is made. *)
Theorem target_class_error_is_reported session target env env1
    (cls : @TargetClass World) e w :
  populate_from_packs populate_targets_from_pack populate_target session
    (requested_or_default target) (lower (requested_or_default target)) env
    = (Ok tt, env1) ->
  TARGET env1 !! lower (requested_or_default target) = Some cls ->
  cls session (world env1) = (Raise e, w) ->
  build session target env =
    (Raise (reported (lower (requested_or_default target)) e),
     mkEnv (TARGET env1) w
       (trace env1 ++
        [EvGetitem (lower (requested_or_default target)) true;
         EvConstruct (lower (requested_or_default target)) (Some e)])).
Proof.
  intros Hpop Hreg Hcls.
  unfold __init__, bind. fold (requested_or_default target). rewrite Hpop.
  unfold create_target, try_except, TARGET_getitem, bind, gets, emit, modify,
    extern, ret, raise.
  simpl. rewrite Hreg. simpl. rewrite Hcls. simpl.
  destruct e; simpl; rewrite <- ?app_assoc; reflexivity.
Qed.

(** X8: the constructor logs once the target class has returned a target,
    and only then: the target type at INFO level, followed by the
    generic-target warning exactly when that type is ["cortex_m"] (however
    the request was spelled), and nothing else -- also when linking the
    target then raises.  A construction that succeeds has logged. *)
Theorem construction_log_records session target env :
  let id := lower (requested_or_default target) in
  let evs := since env (snd (build session target env)) in
  List.filter is_log evs =
    (if target_created evs
     then
       EvLog INFO ("Target type is " +:+ id)
       :: (if String.eqb id "cortex_m"
           then [EvLog WARNING generic_warning]
           else [])
     else []) /\
  match fst (build session target env) with
  | Ok _ => target_created evs = true
  | Raise _ => True
  end.
Proof.
  unfold requested_or_default. run_constructor.
  constructor_cases; read_since;
    rewrite ?Heqb2, ?Heqb1, ?Heqb0, ?Heqb; split; solve [reflexivity|exact I].
Qed.

(** X9: a board that has just been constructed refers to the session it was
    given, has no delegate of its own even when the session has one, and has
    read [test_binary] from the session's options ([None] when unset); its
    description is built from the probe of that session and the lower-cased
    target type. *)
Theorem fresh_board_fields session target env :
  match build session target env with
  | (Ok b, _) =>
      _session b = session /\
      delegate b = None /\
      test_binary b =
        match options session !! "test_binary" with
        | Some v => v
        | None => PyNone
        end /\
      unique_id b = probe_unique_id (probe session) /\
      description b =
        "Generic board via " +:+ vendor_name (probe session) +:+ " " +:+
        product_name (probe session) +:+ " [" +:+
        lower (requested_or_default target) +:+ "]"
  | (Raise _, _) => True
  end.
Proof.
  unfold requested_or_default. run_constructor.
  destruct (options session !! "test_binary") as [v|] eqn:Htb; simpl;
    constructor_cases; try exact I;
    (repeat split;
     first [reflexivity
           |unfold options_get; rewrite Htb; reflexivity
           |unfold description, target_type; simpl;
            rewrite !append_assoc; reflexivity]).
Qed.

End PackSources.

(** ** Further properties of the lifecycle *)

Section Connect.

Context {World : Type}.

Implicit Types (self : @Board World) (env : @Env World).

(** The board [init] leaves behind, on every path, but for the flag. *)
Lemma init_board_after self env :
  let '(r, (self', env')) := init (self, env) in
  _session self' = _session self /\
  _target_type self' = _target_type self /\
  _test_binary self' = _test_binary self /\
  _delegate self' = effective_delegate self /\
  target self' = target self /\
  TARGET env' = TARGET env /\
  (r = Ok tt -> _inited self' = true).
Proof.
  destruct self as [s ty tb dl i t], s as [o p sd lt].
  unfold effective_delegate.
  destruct dl as [[wc dc]|]; [|destruct sd as [[wc dc]|]];
    run_method; try destruct wc as [f|]; try destruct dc as [g|]; simpl;
    repeat next_call; repeat split; try reflexivity; discriminate.
Qed.

(** X10: [init] adopts the session's delegate when the board has none and
    keeps the board's own otherwise; on every path, returning or raising, it
    leaves the session, the target type, the test binary, the target and the
    registry as they were. *)
Theorem init_adopts_session_delegate self env :
  let '(_, (self', env')) := init (self, env) in
  _delegate self' =
    match _delegate self with
    | Some d => Some d
    | None => session_delegate (session self)
    end /\
  _session self' = _session self /\
  _target_type self' = _target_type self /\
  _test_binary self' = _test_binary self /\
  target self' = target self /\
  TARGET env' = TARGET env.
Proof.
  pose proof (init_board_after self env) as H.
  destruct (init (self, env)) as [r [self' env']].
  unfold effective_delegate in H. tauto.
Qed.

(** X11: [uninit] changes nothing of the board but the lifecycle flag, which
    it never sets, and leaves the registry as it was. *)
Theorem uninit_changes_only_the_flag self env :
  let '(r, (self', env')) := uninit (self, env) in
  r = Ok tt /\
  _session self' = _session self /\
  _target_type self' = _target_type self /\
  _test_binary self' = _test_binary self /\
  _delegate self' = _delegate self /\
  target self' = target self /\
  TARGET env' = TARGET env /\
  (_inited self' = true -> _inited self = true).
Proof.
  destruct (_inited self) eqn:Hi.
  - destruct (Target_disconnect (target self)
                (options_get (session self) "resume_on_disconnect"
                   (PyBool true)) (world env)) as [[[]|e] w'] eqn:Hd.
    + rewrite (uninit_disconnect_returns _ _ _ Hi Hd). simpl.
      repeat split; auto.
    + rewrite (uninit_disconnect_raises _ _ _ _ Hi Hd).
      repeat split; auto.
  - rewrite (uninit_skips_when_flag_clear _ _ Hi).
    repeat split; auto; congruence.
Qed.

(** X12: when the target's init step raises, [init] raises the same
    exception; the [did_connect] hook is not called and the lifecycle flag
    keeps the value it had. *)
Theorem init_target_failure_is_fatal self env e w1 w2 :
  run_hook (hook_of (effective_delegate self) will_connect) (view self)
    (world env) = (Ok tt, w1) ->
  Target_init (target self) w1 = (Raise e, w2) ->
  exists self' env',
    init (self, env) = (Raise e, (self', env')) /\
    _inited self' = _inited self /\
    world env' = w2 /\
    trace env' =
      trace env ++
      match hook_of (effective_delegate self) will_connect with
      | Some _ => [EvWillConnect None]
      | None => []
      end ++ [EvTargetInit (Some e)].
Proof.
  destruct self as [s ty tb dl i t], s as [o p sd lt].
  unfold effective_delegate, hook_of, run_hook, view. simpl.
  intros Hw Ht.
  destruct dl as [[wc dc]|]; [|destruct sd as [[wc dc]|]];
    run_method; simpl in Hw; try destruct wc as [f|]; simpl in *;
    try rewrite Hw; try (inversion Hw; subst w1); simpl;
    rewrite Ht; simpl; do 2 eexists;
    rewrite <- ?app_assoc; simpl; repeat split; reflexivity.
Qed.

(** X13: when the [will_connect] hook raises, [init] raises the same
    exception without having called the target's init; the lifecycle flag
    keeps the value it had. *)
Theorem init_will_connect_failure_skips_target self env hook e w1 :
  hook_of (effective_delegate self) will_connect = Some hook ->
  hook (view self) (world env) = (Raise e, w1) ->
  init (self, env) =
    (Raise e,
     (mkBoard (_session self) (_target_type self) (_test_binary self)
        (effective_delegate self) (_inited self) (target self),
      mkEnv (TARGET env) w1 (trace env ++ [EvWillConnect (Some e)]))).
Proof.
  destruct self as [s ty tb dl i t], s as [o p sd lt].
  unfold effective_delegate, hook_of, view. simpl.
  intros Hh Hr.
  destruct dl as [[wc dc]|]; [|destruct sd as [[wc dc]|]];
    simpl in Hh; try discriminate Hh; subst wc;
    run_method; rewrite Hr; reflexivity.
Qed.

(** X14: a board that [init] has brought up and whose target disconnects
    cleanly is returned by [uninit] to where it started, with the flag false
    and the delegate [init] settled on. *)
Theorem init_then_uninit_round_trip self env self1 env1 w2 :
  init (self, env) = (Ok tt, (self1, env1)) ->
  Target_disconnect (target self)
    (options_get (session self) "resume_on_disconnect" (PyBool true))
    (world env1) = (Ok tt, w2) ->
  uninit (self1, env1) =
    (Ok tt,
     (mkBoard (_session self) (_target_type self) (_test_binary self)
        (effective_delegate self) false (target self),
      mkEnv (TARGET env) w2
        (trace env1 ++
         [EvLog DEBUG "uninit board %s";
          EvDisconnect
            (options_get (session self) "resume_on_disconnect" (PyBool true))
            None]))).
Proof.
  intros Hinit Hd.
  pose proof (init_board_after self env) as H. rewrite Hinit in H.
  destruct H as (Hs & Hty & Htb & Hdl & Ht & Hreg & Hi).
  specialize (Hi eq_refl).
  unfold session in Hd. rewrite <- Hs, <- Ht in Hd.
  rewrite (uninit_disconnect_returns self1 env1 w2 Hi Hd).
  unfold session. rewrite Hs, Hty, Htb, Hdl, Ht, Hreg. reflexivity.
Qed.

(** X15: after an [uninit] whose disconnect returned, a second [uninit]
    does nothing: disconnect is not called again. *)
Theorem uninit_twice_disconnects_once self env w' :
  _inited self = true ->
  Target_disconnect (target self)
    (options_get (session self) "resume_on_disconnect" (PyBool true))
    (world env) = (Ok tt, w') ->
  uninit (snd (uninit (self, env))) = (Ok tt, snd (uninit (self, env))).
Proof.
  intros Hi Hd. rewrite (uninit_disconnect_returns self env w' Hi Hd). simpl.
  apply uninit_skips_when_flag_clear. reflexivity.
Qed.

(** X16: on an initialised board, [uninit] applies the target's disconnect
    to the value of the [resume_on_disconnect] option as it is stored,
    [None] included, and to [True] only when the option is not set at all;
    it ends in the world that call left, with the flag cleared when the call
    returned and an error record when it raised. *)
Theorem uninit_passes_resume_option self env :
  _inited self = true ->
  uninit (self, env) =
    let resume :=
      match options (session self) !! "resume_on_disconnect" with
      | Some v => v
      | None => PyBool true
      end in
    match Target_disconnect (target self) resume (world env) with
    | (Ok _, w) =>
        (Ok tt,
         (mkBoard (_session self) (_target_type self) (_test_binary self)
            (_delegate self) false (target self),
          mkEnv (TARGET env) w
            (trace env ++
             [EvLog DEBUG "uninit board %s"; EvDisconnect resume None])))
    | (Raise e, w) =>
        (Ok tt,
         (self,
          mkEnv (TARGET env) w
            (trace env ++
             [EvLog DEBUG "uninit board %s"; EvDisconnect resume (Some e);
              EvLog ERROR "link exception during target disconnect:"])))
    end.
Proof.
  intros Hi. rewrite (uninit_calls_disconnect self env Hi).
  unfold options_get.
  destruct (options (session self) !! "resume_on_disconnect"); reflexivity.
Qed.

(** X17: a delegate set on the board through the [delegate] setter is the
    one [init] works with, whatever delegate the session has: it is still the
    board's delegate afterwards, and the hooks applied around the target's
    init are its hooks -- [will_connect] to the world as it is, [did_connect]
    to the world the target's init left -- each skipped when it is missing. *)
Theorem init_prefers_own_delegate self env d :
  let '(r, (self', env')) := init (snd (set_delegate (Some d) (self, env))) in
  _delegate self' = Some d /\
  match run_hook (will_connect d) (view self) (world env) with
  | (Raise e, w1) =>
      r = Raise e /\ world env' = w1 /\
      trace env' = trace env ++ [EvWillConnect (Some e)]
  | (Ok _, w1) =>
      match Target_init (target self) w1 with
      | (Raise e, w2) =>
          r = Raise e /\ world env' = w2 /\
          trace env' =
            trace env ++
            match will_connect d with
            | Some _ => [EvWillConnect None]
            | None => []
            end ++ [EvTargetInit (Some e)]
      | (Ok _, w2) =>
          let '(r3, w3) :=
            run_hook (did_connect d)
              (mkBoardView (_target_type self) true) w2 in
          r = r3 /\ world env' = w3 /\
          trace env' =
            trace env ++
            match will_connect d with
            | Some _ => [EvWillConnect None]
            | None => []
            end ++ [EvTargetInit None] ++
            match did_connect d with
            | Some _ => [EvDidConnect (raised r3)]
            | None => []
            end
      end
  end.
Proof.
  destruct self as [s ty tb dl i t], s as [o p sd lt], d as [wc dc].
  unfold run_hook.
  run_method; destruct wc as [f|]; destruct dc as [g|]; simpl;
    repeat next_call; rewrite <- ?app_assoc; simpl;
    repeat split; reflexivity.
Qed.

End Connect.

(** ** Further scenarios *)

Lemma managed_query_follows_membership_test_witness :
  populate_from_packs no_pack exact_managed plain_session "stm32f429xi"
    "stm32f429xi" (env0 builtin) =
    (Ok tt,
     mkEnv (<["stm32f429xi" := good_class]> builtin) 0
       [EvContains "stm32f429xi" false;
        EvPopulateManaged "stm32f429xi" None]).
Proof.
  exact (managed_query_follows_membership_test no_pack exact_managed
           plain_session "stm32f429xi" "stm32f429xi" (env0 builtin)
           (env0 builtin) eq_refl).
Defined.

Lemma registered_target_needs_no_pack_source_witness :
  let res :=
    __init__ no_pack no_managed link plain_session (Some "NRF52")
      (env0 builtin) in
  TARGET (snd res) = builtin /\
  count is_pack_load (since (env0 builtin) (snd res)) = 0 /\
  count is_managed_query (since (env0 builtin) (snd res)) = 0 /\
  (fst res, world (snd res)) =
    (Ok (mkBoard plain_session "nrf52" PyNone None false good_target), 0).
Proof.
  exact (registered_target_needs_no_pack_source no_pack no_managed link
           plain_session (Some "NRF52") (env0 builtin) good_class
           eq_refl eq_refl).
Defined.

(** The same request, with a target that cannot be linked into the tree. *)
Example unlinkable_target_fails_after_logging :
  fst (__init__ no_pack no_managed no_link plain_session (Some "NRF52")
         (env0 builtin)) = Raise (OtherError "AttributeError") /\
  trace (snd (__init__ no_pack no_managed no_link plain_session (Some "NRF52")
                (env0 builtin))) =
    [EvContains "nrf52" true; EvGetitem "nrf52" true;
     EvConstruct "nrf52" None; EvLog INFO "Target type is nrf52";
     EvAddChild (Some (OtherError "AttributeError"))].
Proof.
  vm_compute. auto.
Qed.

Lemma supplied_pack_overrides_registry_witness :
  let res :=
    __init__ vendor_pack no_managed link pack_session (Some "nrf52")
      (env0 builtin)
  in
  fst res = Ok (mkBoard pack_session "nrf52" PyNone None false stuck_target) /\
  TARGET (snd res) = <["nrf52" := stuck_class]> builtin /\
  world (snd res) = 1 /\
  count is_managed_query (since (env0 builtin) (snd res)) = 0.
Proof.
  exact (supplied_pack_overrides_registry vendor_pack no_managed link
           pack_session (Some "nrf52") (env0 builtin) (PyStr "vendor.pack")
           (<["nrf52" := stuck_class]> builtin) 1 stuck_class stuck_target 1 1
           eq_refl eq_refl eq_refl eq_refl eq_refl eq_refl).
Defined.

Lemma pack_load_error_aborts_construction_witness :
  __init__ broken_pack no_managed link pack_session (Some "nrf52") (env0 builtin) =
    (Raise (OtherError "MalformedCmsisPackError"),
     mkEnv builtin 1
       [EvPopulatePack (PyStr "vendor.pack")
          (Some (OtherError "MalformedCmsisPackError"))]).
Proof.
  exact (pack_load_error_aborts_construction broken_pack no_managed link
           pack_session (Some "nrf52") (env0 builtin) (PyStr "vendor.pack")
           (OtherError "MalformedCmsisPackError") builtin 1
           eq_refl eq_refl eq_refl).
Defined.

Lemma managed_query_error_aborts_construction_witness :
  __init__ vendor_pack offline_managed link pack_session (Some "K64F")
    (env0 builtin) =
    (Raise (OtherError "IndexError"),
     mkEnv (<["nrf52" := stuck_class]> builtin) 1
       [EvPopulatePack (PyStr "vendor.pack") None;
        EvContains "k64f" false;
        EvPopulateManaged "K64F" (Some (OtherError "IndexError"))]).
Proof.
  exact (managed_query_error_aborts_construction vendor_pack offline_managed
           link pack_session (Some "K64F") (env0 builtin)
           (mkEnv (<["nrf52" := stuck_class]> builtin) 1
              [EvPopulatePack (PyStr "vendor.pack") None])
           (OtherError "IndexError")
           (<["nrf52" := stuck_class]> builtin) 1
           eq_refl eq_refl eq_refl).
Defined.

Lemma target_class_error_is_reported_witness :
  __init__ no_pack no_managed link plain_session (Some "K64F")
    (env0 faulty_registry) =
    (Raise
       (TargetSupportError
          "Target 'k64f' not recognized. Use the 'pyocd list --targets' command to see all available targets."
          (KeyError "flash_algo")),
     mkEnv faulty_registry 1
       [EvContains "k64f" true; EvGetitem "k64f" true;
        EvConstruct "k64f" (Some (KeyError "flash_algo"))]).
Proof.
  exact (target_class_error_is_reported no_pack no_managed link plain_session
           (Some "K64F") (env0 faulty_registry)
           (mkEnv faulty_registry 0 [EvContains "k64f" true])
           keyerror_class (KeyError "flash_algo") 1
           eq_refl eq_refl eq_refl).
Defined.

(** An exception of the target class that is not a [KeyError] is passed on. *)
Example other_class_error_is_passed_on :
  fst (__init__ no_pack no_managed link plain_session (Some "K66F")
         (env0 faulty_registry)) = Raise (OtherError "ProbeError").
Proof.
  vm_compute. reflexivity.
Qed.

Lemma init_target_failure_is_fatal_witness :
  exists self' env',
    init (board_of (session_with observer) "nrf52" false dead_target,
          env0 builtin) =
      (Raise (OtherError "TransferFaultError"), (self', env')) /\
    _inited self' = false /\
    world env' = 2 /\
    trace env' =
      [EvWillConnect None;
       EvTargetInit (Some (OtherError "TransferFaultError"))].
Proof.
  exact (init_target_failure_is_fatal
           (board_of (session_with observer) "nrf52" false dead_target)
           (env0 builtin) (OtherError "TransferFaultError") 1 2
           eq_refl eq_refl).
Defined.

Lemma init_will_connect_failure_skips_target_witness :
  init (board_of (session_with refusing) "nrf52" false good_target,
        env0 builtin) =
    (Raise (OtherError "HookError"),
     (mkBoard (session_with refusing) "nrf52" PyNone (Some refusing) false
        good_target,
      mkEnv builtin 1 [EvWillConnect (Some (OtherError "HookError"))])).
Proof.
  exact (init_will_connect_failure_skips_target
           (board_of (session_with refusing) "nrf52" false good_target)
           (env0 builtin) (fun _ => raises "HookError")
           (OtherError "HookError") 1 eq_refl eq_refl).
Defined.

Lemma init_then_uninit_round_trip_witness :
  uninit
    (mkBoard (session_with observer) "nrf52" PyNone (Some observer) true
       good_target,
     mkEnv builtin 3
       [EvWillConnect None; EvTargetInit None; EvDidConnect None]) =
    (Ok tt,
     (mkBoard (session_with observer) "nrf52" PyNone (Some observer) false
        good_target,
      mkEnv builtin 4
        [EvWillConnect None; EvTargetInit None; EvDidConnect None;
         EvLog DEBUG "uninit board %s"; EvDisconnect (PyBool true) None])).
Proof.
  exact (init_then_uninit_round_trip
           (board_of (session_with observer) "nrf52" false good_target)
           (env0 builtin)
           (mkBoard (session_with observer) "nrf52" PyNone (Some observer)
              true good_target)
           (mkEnv builtin 3
              [EvWillConnect None; EvTargetInit None; EvDidConnect None])
           4 eq_refl eq_refl).
Defined.

Lemma uninit_twice_disconnects_once_witness :
  uninit (snd (uninit (board_of plain_session "nrf52" true good_target,
                       env0 builtin))) =
    (Ok tt,
     snd (uninit (board_of plain_session "nrf52" true good_target,
                  env0 builtin))).
Proof.
  exact (uninit_twice_disconnects_once
           (board_of plain_session "nrf52" true good_target) (env0 builtin) 1
           eq_refl eq_refl).
Defined.

Lemma uninit_passes_resume_option_witness :
  uninit (board_of halting_session "nrf52" true good_target, env0 builtin) =
    (Ok tt,
     (board_of halting_session "nrf52" false good_target,
      mkEnv builtin 1
        [EvLog DEBUG "uninit board %s"; EvDisconnect (PyBool false) None])).
Proof.
  exact (uninit_passes_resume_option
           (board_of halting_session "nrf52" true good_target) (env0 builtin)
           eq_refl).
Defined.
